(** * QuiverInsiderTradingUniverseSelectionAlgorithm

    A shallow embedding of the example algorithm
    [QuiverInsiderTradingUniverseSelectionAlgorithm.py]: the history sanity
    check of [Initialize] and the universe filter [UniverseSelection].

    Modelling choices.
    - The algorithm object [self] is a record [QCAlgorithm]; methods are
      computations in a state-and-exception monad [M].
    - Python exceptions are values of [PyException]; an operation that can
      raise returns a [result].
    - The local dict [symbol_data] is an association list in insertion
      order, which is the iteration order of [dict.items()].
    - The values the engine delivers are exact: integers ([Z]) and
      decimals ([Q]). The product and the sum of line 59 are computed by the
      Python runtime, whose numbers round; module [Runtime] embeds the
      selection over an arbitrary [Arithmetic], of which nothing is assumed,
      and the properties that involve a computed sum are proved there for
      every arithmetic. The definitions outside [Runtime] are the instance
      [exact_decimal], in which products and sums are exact rationals and
      sums are compared up to [Qeq]. *)

From Stdlib Require Import String List ZArith QArith Lia Bool Arith.
From Stdlib Require Import DecimalString Permutation.
Import ListNotations.

Local Open Scope string_scope.
Local Open Scope list_scope.
Local Open Scope nat_scope.

(** ** Exceptions and results *)

Inductive PyException : Type :=
| TypeError (msg : string)
| KeyError (key : string)
| ValueError (msg : string).

Inductive result (A : Type) : Type :=
| Ok (a : A)
| Raise (e : PyException).

Arguments Ok {A} a.
Arguments Raise {A} e.

Definition bindR {A B : Type} (r : result A) (k : A -> result B) : result B :=
  match r with
  | Ok a => k a
  | Raise e => Raise e
  end.

Declare Scope result_scope.
Delimit Scope result_scope with result.
Notation "x <-? r ;; k" := (bindR r (fun x => k))
  (at level 61, r at next level, right associativity) : result_scope.

(** ** The data type delivered by the engine *)

(** Modelled from the spec: the record class [QuiverInsiderTradingUniverse]
    is declared outside this file. Fields as in section 3 of the
    specification: [symbol] (identifier), [shares] (integer or absent),
    [price_per_share] (decimal or absent), [shares_owned_following]
    (integer or absent). *)
Record QuiverInsiderTradingUniverse : Type := mkDatum {
  Symbol : string;
  Shares : option Z;
  PricePerShare : option Q;
  SharesOwnedFollowing : option Z
}.

Definition Datum : Type := QuiverInsiderTradingUniverse.

(** ** The algorithm object *)

Inductive Resolution : Type := Tick | Second | Minute | Hour | Daily.

(** One call of [self.Log] with the four interpolated values of the
    f-string [symbol,Shares,PricePerShare,SharesOwnedFollowing]. *)
Inductive LogLine : Type :=
| LogDatum (symbol : string) (shares : option Z) (price : option Q)
           (owned : option Z).

Record QCAlgorithm : Type := mkAlgorithm {
  UniverseSettings_Resolution : option Resolution;
  StartDate : option (Z * Z * Z);
  EndDate : option (Z * Z * Z);
  Cash : Z;
  Universes : list string;
  LogOutput : list LogLine
}.

Definition M (A : Type) : Type := QCAlgorithm -> QCAlgorithm * result A.

Definition ret {A : Type} (a : A) : M A := fun self => (self, Ok a).

Definition bind {A B : Type} (m : M A) (k : A -> M B) : M B :=
  fun self =>
    match m self with
    | (self', Ok a) => k a self'
    | (self', Raise e) => (self', Raise e)
    end.

Definition lift {A : Type} (r : result A) : M A := fun self => (self, r).

Declare Scope alg_scope.
Delimit Scope alg_scope with alg.
Notation "x <- m ;; k" := (bind m (fun x => k))
  (at level 61, m at next level, right associativity) : alg_scope.
Notation "m ;;; k" := (bind m (fun _ => k))
  (at level 61, right associativity) : alg_scope.

Definition set_Resolution (r : Resolution) : M unit := fun self =>
  (mkAlgorithm (Some r) (StartDate self) (EndDate self) (Cash self)
     (Universes self) (LogOutput self), Ok tt).

Definition SetStartDate (y m d : Z) : M unit := fun self =>
  (mkAlgorithm (UniverseSettings_Resolution self) (Some (y, m, d))
     (EndDate self) (Cash self) (Universes self) (LogOutput self), Ok tt).

Definition SetEndDate (y m d : Z) : M unit := fun self =>
  (mkAlgorithm (UniverseSettings_Resolution self) (StartDate self)
     (Some (y, m, d)) (Cash self) (Universes self) (LogOutput self), Ok tt).

Definition SetCash (c : Z) : M unit := fun self =>
  (mkAlgorithm (UniverseSettings_Resolution self) (StartDate self)
     (EndDate self) c (Universes self) (LogOutput self), Ok tt).

Definition AddUniverse (name : string) : M unit := fun self =>
  (mkAlgorithm (UniverseSettings_Resolution self) (StartDate self)
     (EndDate self) (Cash self) (Universes self ++ [name]) (LogOutput self),
   Ok tt).

Definition Log (line : LogLine) : M unit := fun self =>
  (mkAlgorithm (UniverseSettings_Resolution self) (StartDate self)
     (EndDate self) (Cash self) (Universes self) (LogOutput self ++ [line]),
   Ok tt).

(** [for x in l: body], threading the local variables [s] of the loop. *)
Fixpoint for_each {A S : Type} (l : list A) (body : A -> S -> M S) (s : S)
  : M S :=
  match l with
  | [] => ret s
  | x :: t => bind (body x s) (for_each t body)
  end.

(** The same loop for a body that only raises or passes. *)
Fixpoint for_eachR {A : Type} (l : list A) (body : A -> result unit)
  : result unit :=
  match l with
  | [] => Ok tt
  | x :: t => bindR (body x) (fun _ => for_eachR t body)
  end.

(** ** Python dict with string keys, in insertion order *)

Definition dict (V : Type) : Type := list (string * V).

(** [k in d] *)
Definition dict_contains {V : Type} (k : string) (d : dict V) : bool :=
  existsb (fun kv => String.eqb (fst kv) k) d.

(** [d[k] = v]: an existing key keeps its position, a new key goes last. *)
Fixpoint dict_setitem {V : Type} (k : string) (v : V) (d : dict V) : dict V :=
  match d with
  | [] => [(k, v)]
  | (k', v') :: r =>
      if String.eqb k' k then (k', v) :: r else (k', v') :: dict_setitem k v r
  end.

(** [d[k]], which raises [KeyError] on a missing key. *)
Fixpoint dict_getitem {V : Type} (k : string) (d : dict V) : result V :=
  match d with
  | [] => Raise (KeyError k)
  | (k', v') :: r => if String.eqb k' k then Ok v' else dict_getitem k r
  end.

(** [d.items()] *)
Definition dict_items {V : Type} (d : dict V) : list (string * V) := d.

(** [d[k].append(x)]: the list stored under [k] is mutated in place, so the
    dict sees the longer list under the same key at the same position. *)
Definition dict_append_at {V : Type} (k : string) (x : V) (d : dict (list V))
  : result (dict (list V)) :=
  bindR (dict_getitem k d) (fun l => Ok (dict_setitem k (l ++ [x]) d)).

(** ** Python arithmetic on the nullable fields *)

(** [a * b]: multiplying with [None] raises [TypeError]. *)
Definition py_mul (a : option Z) (b : option Q) : result Q :=
  match a, b with
  | Some s, Some p => Ok (inject_Z s * p)%Q
  | _, _ => Raise (TypeError "unsupported operand type(s) for *")
  end.

(** [a != None] *)
Definition not_None {A : Type} (a : option A) : bool :=
  match a with
  | Some _ => true
  | None => false
  end.

(** [sum(l)]: left to right, starting from [0]. *)
Definition py_sum (l : list Q) : Q := fold_left Qplus l 0%Q.

(** [a > b] on numbers. *)
Definition Qgt_bool (a b : Q) : bool :=
  (Qnum b * QDen a <? Qnum a * QDen b)%Z.

(** ** Initialize *)

Definition string_of_nat (n : nat) : string :=
  NilEmpty.string_of_uint (Nat.to_uint n).

(** Lines 34-39: the checks on the value returned by [self.History]. *)
Definition check_history (history : list (list Datum)) : result unit :=
  if negb (length history =? 1) then
    Raise (ValueError ("Unexpected history count "
                         ++ string_of_nat (length history)
                         ++ "! Expected 1")%string)
  else
    for_eachR history (fun dataForDate =>
      if length dataForDate <? 300 then
        Raise (ValueError "Unexpected historical universe data!")
      else Ok tt).

(** [Initialize]; [history] is what the engine answers to
    [self.History(universe, TimeSpan(1, 0, 0, 0))]. *)
Definition Initialize (history : list (list Datum)) : M unit :=
  (set_Resolution Daily ;;;
   SetStartDate 2022 2 14 ;;;
   SetEndDate 2022 2 18 ;;;
   SetCash 100000 ;;;
   AddUniverse "QuiverInsiderTradingUniverse" ;;;
   lift (check_history history))%alg.

(** ** UniverseSelection *)

(** Lines 50-55, the body of the loop over [data]. *)
Definition group_datum (datum : Datum) (symbol_data : dict (list Datum))
  : M (dict (list Datum)) :=
  (let symbol := Symbol datum in
   Log (LogDatum symbol (Shares datum) (PricePerShare datum)
          (SharesOwnedFollowing datum)) ;;;
   let symbol_data :=
     if negb (dict_contains symbol symbol_data)
     then dict_setitem symbol [] symbol_data
     else symbol_data in
   lift (dict_append_at symbol datum symbol_data))%alg.

(** [[x.Shares * x.PricePerShare for x in d
      if x.Shares != None and x.PricePerShare != None]] *)
Fixpoint products (d : list Datum) : result (list Q) :=
  match d with
  | [] => Ok []
  | x :: t =>
      if not_None (Shares x) && not_None (PricePerShare x) then
        (p <-? py_mul (Shares x) (PricePerShare x) ;;
         r <-? products t ;;
         Ok (p :: r))%result
      else products t
  end.

(** [sum([...])] of line 59. *)
Definition notional (d : list Datum) : result Q :=
  (l <-? products d ;; Ok (py_sum l))%result.

(** The condition of the comprehension; [and] does not evaluate its right
    operand when the left one is false. *)
Definition criteria (d : list Datum) : result bool :=
  if 2 <=? length d then
    (n <-? notional d ;; Ok (Qgt_bool n 100000))%result
  else Ok false.

(** [[symbol for symbol, d in items if criteria]] *)
Fixpoint select_symbols (items : list (string * list Datum))
  : result (list string) :=
  match items with
  | [] => Ok []
  | (symbol, d) :: rest =>
      (b <-? criteria d ;;
       r <-? select_symbols rest ;;
       Ok (if b then symbol :: r else r))%result
  end.

Definition UniverseSelection (data : list Datum) : M (list string) :=
  (symbol_data <- for_each data group_datum [] ;;
   lift (select_symbols (dict_items symbol_data)))%alg.

(** The value returned by one call on the algorithm object [self]. *)
Definition selection (self : QCAlgorithm) (data : list Datum)
  : result (list string) :=
  snd (UniverseSelection data self).

(** ** Vocabulary of the specification *)

(** The records of the batch that carry symbol [s], in batch order. *)
Definition records_of (s : string) (data : list Datum) : list Datum :=
  filter (fun x => String.eqb (Symbol x) s) data.

(** What one record adds to the notional of its symbol: the product when
    both fields are present, nothing otherwise. *)
Definition contribution (x : Datum) : Q :=
  match Shares x, PricePerShare x with
  | Some s, Some p => (inject_Z s * p)%Q
  | _, _ => 0%Q
  end.

Fixpoint total_contribution (d : list Datum) : Q :=
  match d with
  | [] => 0%Q
  | x :: t => (contribution x + total_contribution t)%Q
  end.

(** The distinct elements of a list in the order of their first
    occurrence. *)
Fixpoint first_occurrences (l : list string) : list string :=
  match l with
  | [] => []
  | x :: t => x :: filter (fun y => negb (String.eqb y x)) (first_occurrences t)
  end.


(** The grouping the loop builds, written as a function of the batch. *)
Definition grouping (data : list Datum) : dict (list Datum) :=
  map (fun s => (s, records_of s data)) (first_occurrences (map Symbol data)).

(** The pure selection rule on one group. *)
Definition qualifies (d : list Datum) : bool :=
  (2 <=? length d) && Qgt_bool (total_contribution d) 100000.

(** The symbols the rule selects, in first-occurrence order. *)
Definition selected (data : list Datum) : list string :=
  filter (fun s => qualifies (records_of s data))
         (first_occurrences (map Symbol data)).

(** The log lines one call emits, and the algorithm object after them. *)
Definition log_data (data : list Datum) : list LogLine :=
  map (fun datum => LogDatum (Symbol datum) (Shares datum)
                      (PricePerShare datum) (SharesOwnedFollowing datum))
      data.

Definition with_log (self : QCAlgorithm) (lines : list LogLine) : QCAlgorithm :=
  mkAlgorithm (UniverseSettings_Resolution self) (StartDate self)
    (EndDate self) (Cash self) (Universes self) (LogOutput self ++ lines).

(** A dict given by its keys and a function for the values. *)
Definition tabulate {V : Type} (f : string -> V) (keys : list string) : dict V :=
  map (fun k => (k, f k)) keys.

Definition initial_algorithm : QCAlgorithm :=
  mkAlgorithm None None None 0 [] [].

Definition example_batch : list Datum :=
  [ mkDatum "A" (Some 1000%Z) (Some 60%Q) None;
    mkDatum "A" (Some 1000%Z) (Some 50%Q) None;
    mkDatum "B" (Some 1%Z) (Some 1%Q) None ].

(** Two records of one symbol whose notional is exactly the threshold, and
    two whose notional is one cent above it. *)
Definition threshold_batch : list Datum :=
  [ mkDatum "A" (Some 1%Z) (Some 50000%Q) None;
    mkDatum "A" (Some 1%Z) (Some 50000%Q) None ].

Definition above_threshold_batch : list Datum :=
  [ mkDatum "A" (Some 1%Z) (Some 50000%Q) None;
    mkDatum "A" (Some 1%Z) (Some (5000001 # 100)%Q) None ].

(** Two records of one symbol, the first without numeric fields. *)
Definition half_absent_batch : list Datum :=
  [ mkDatum "A" None None None;
    mkDatum "A" (Some 2000%Z) (Some 75%Q) (Some 10%Z) ].

(** The condition under which the history check of [Initialize] fails. *)
Definition bad_history (history : list (list Datum)) : Prop :=
  length history <> 1 \/ Exists (fun p => length p < 300) history.


(** ** Vocabulary of the further properties *)

(** The object [Initialize] leaves: lines 24-31 applied to [self]. *)
Definition configured (self : QCAlgorithm) : QCAlgorithm :=
  mkAlgorithm (Some Daily) (Some (2022, 2, 14)%Z) (Some (2022, 2, 18)%Z)
    100000 (Universes self ++ ["QuiverInsiderTradingUniverse"])
    (LogOutput self).

(** The number of records held by a grouping, over all its keys. *)
Definition group_sizes (symbol_data : dict (list Datum)) : nat :=
  list_sum (map (fun kv => length (snd kv)) symbol_data).

(** The dict [symbol_data] when the loop of lines 49-55 is over. *)
Definition grouped (self : QCAlgorithm) (data : list Datum)
  : result (dict (list Datum)) :=
  snd (for_each data group_datum [] self).

(** No symbol occurs in both batches. *)
Definition disjoint_symbols (a b : list Datum) : Prop :=
  forall s, In s (map Symbol a) -> ~ In s (map Symbol b).

(** Both numeric fields are there and their product is positive. *)
Definition positive_record (x : Datum) : Prop :=
  exists sh p, Shares x = Some sh /\ PricePerShare x = Some p
               /\ (0 < inject_Z sh * p)%Q.

(** A period of [n] copies of one record. *)
Definition period_of (n : nat) (x : Datum) : list Datum := repeat x n.

Definition datum_A : Datum := mkDatum "A" (Some 1000%Z) (Some 60%Q) None.
Definition datum_B : Datum := mkDatum "B" None None None.

(** ** The arithmetic of the runtime *)

(** A number system in which line 59 can be evaluated: the numbers, the
    int literals ([0], from which [sum] starts, and [100000]), the product
    [x.Shares * x.PricePerShare] of a delivered integer and a delivered
    decimal, the [+] that [sum] applies, and [>]. The operations may round
    and need not be associative, commutative or monotone. *)
Record Arithmetic : Type := mkArithmetic {
  number : Type;
  num_of_int : Z -> number;
  num_mul : Z -> Q -> number;
  num_add : number -> number -> number;
  num_gt : number -> number -> bool
}.

(** Arithmetic without rounding. *)
Definition exact_decimal : Arithmetic :=
  mkArithmetic Q inject_Z (fun s p => (inject_Z s * p)%Q) Qplus Qgt_bool.

Module Runtime.

(** [a * b]: multiplying with [None] raises [TypeError]. *)
Definition py_mul (R : Arithmetic) (a : option Z) (b : option Q)
  : result (number R) :=
  match a, b with
  | Some s, Some p => Ok (num_mul R s p)
  | _, _ => Raise (TypeError "unsupported operand type(s) for *")
  end.

(** [sum(l)]: left to right, starting from the int [0]. *)
Definition py_sum (R : Arithmetic) (l : list (number R)) : number R :=
  fold_left (num_add R) l (num_of_int R 0).

(** [[x.Shares * x.PricePerShare for x in d
      if x.Shares != None and x.PricePerShare != None]] *)
Fixpoint products (R : Arithmetic) (d : list Datum)
  : result (list (number R)) :=
  match d with
  | [] => Ok []
  | x :: t =>
      if not_None (Shares x) && not_None (PricePerShare x) then
        (p <-? py_mul R (Shares x) (PricePerShare x) ;;
         r <-? products R t ;;
         Ok (p :: r))%result
      else products R t
  end.

(** [sum([...])] of line 59. *)
Definition notional (R : Arithmetic) (d : list Datum) : result (number R) :=
  (l <-? products R d ;; Ok (py_sum R l))%result.

(** [len(d) >= 2 and sum([...]) > 100000] *)
Definition criteria (R : Arithmetic) (d : list Datum) : result bool :=
  if 2 <=? length d then
    (n <-? notional R d ;; Ok (num_gt R n (num_of_int R 100000)))%result
  else Ok false.

(** [[symbol for symbol, d in items if criteria]] *)
Fixpoint select_symbols (R : Arithmetic) (items : list (string * list Datum))
  : result (list string) :=
  match items with
  | [] => Ok []
  | (symbol, d) :: rest =>
      (b <-? criteria R d ;;
       r <-? select_symbols R rest ;;
       Ok (if b then symbol :: r else r))%result
  end.

Definition UniverseSelection (R : Arithmetic) (data : list Datum)
  : M (list string) :=
  (symbol_data <- for_each data group_datum [] ;;
   lift (select_symbols R (dict_items symbol_data)))%alg.

(** The value returned by one call on the algorithm object [self]. *)
Definition selection (R : Arithmetic) (self : QCAlgorithm) (data : list Datum)
  : result (list string) :=
  snd (UniverseSelection R data self).

End Runtime.

(** The products of the records of a group that have both numeric fields,
    in the order of the group; the other records give no term. *)
Fixpoint present_products (R : Arithmetic) (d : list Datum)
  : list (number R) :=
  match d with
  | [] => []
  | x :: t =>
      match Shares x, PricePerShare x with
      | Some s, Some p => num_mul R s p :: present_products R t
      | _, _ => present_products R t
      end
  end.

(** The sum of those products as the runtime adds them: from the int [0],
    left to right. *)
Definition computed_sum (R : Arithmetic) (d : list Datum) : number R :=
  fold_left (num_add R) (present_products R d) (num_of_int R 0).

Definition qualifies_in (R : Arithmetic) (d : list Datum) : bool :=
  (2 <=? length d) && num_gt R (computed_sum R d) (num_of_int R 100000).

Definition selected_in (R : Arithmetic) (data : list Datum) : list string :=
  filter (fun s => qualifies_in R (records_of s data))
         (first_occurrences (map Symbol data)).

(** The records of two symbols, interleaved in two ways. *)
Definition interleaved_batch : list Datum :=
  [ mkDatum "A" (Some 1000%Z) (Some 60%Q) None;
    mkDatum "B" (Some 1%Z) (Some 1%Q) None;
    mkDatum "A" (Some 1000%Z) (Some 50%Q) None ].

Definition regrouped_batch : list Datum :=
  [ mkDatum "B" (Some 1%Z) (Some 1%Q) None;
    mkDatum "A" (Some 1000%Z) (Some 60%Q) None;
    mkDatum "A" (Some 1000%Z) (Some 50%Q) None ].

(** * Proofs *)

(** ** First occurrences *)

Lemma first_occurrences_In (l : list string) (s : string) :
  In s (first_occurrences l) <-> In s l.
Proof.
  induction l as [|x t IH]; simpl; [tauto|].
  rewrite filter_In, IH, negb_true_iff, String.eqb_neq.
  destruct (String.eqb_spec x s) as [->|Hne]; [tauto|].
  split; [tauto|]. intros [H|H]; [tauto|].
  right. split; [exact H|congruence].
Qed.

Lemma first_occurrences_NoDup (l : list string) : NoDup (first_occurrences l).
Proof.
  induction l as [|x t IH]; simpl; constructor.
  - rewrite filter_In, String.eqb_refl. simpl. intros [_ H]. discriminate.
  - now apply NoDup_filter.
Qed.

Lemma first_occurrences_snoc_new (l : list string) (s : string) :
  ~ In s l -> first_occurrences (l ++ [s]) = first_occurrences l ++ [s].
Proof.
  induction l as [|x t IH]; simpl; [reflexivity|].
  intros H. rewrite IH by tauto.
  rewrite filter_app. simpl.
  destruct (String.eqb_spec s x) as [->|_]; [tauto|reflexivity].
Qed.

Lemma first_occurrences_snoc_old (l : list string) (s : string) :
  In s l -> first_occurrences (l ++ [s]) = first_occurrences l.
Proof.
  induction l as [|x t IH]; simpl; [tauto|].
  intros H. f_equal.
  destruct (in_dec string_dec s t) as [Hin|Hnin].
  - now rewrite IH.
  - destruct H as [->|H]; [|tauto].
    rewrite first_occurrences_snoc_new by exact Hnin.
    rewrite filter_app. simpl. rewrite String.eqb_refl. simpl.
    apply app_nil_r.
Qed.

(** ** Dicts given by keys and a value function *)

Section Tabulate.
Context {V : Type}.
Implicit Types (f g : string -> V) (keys : list string) (k : string).

Lemma tabulate_contains f keys k :
  dict_contains k (tabulate f keys) = true <-> In k keys.
Proof.
  unfold dict_contains, tabulate. rewrite existsb_exists. split.
  - intros [[k' v] [Hin Heq]]. apply in_map_iff in Hin.
    destruct Hin as [k'' [Hk Hin]]. inversion Hk; subst.
    simpl in Heq. apply String.eqb_eq in Heq. now subst.
  - intros Hin. exists (k, f k). split.
    + apply in_map_iff. now exists k.
    + simpl. apply String.eqb_refl.
Qed.

Lemma tabulate_setitem_new f keys k :
  ~ In k keys ->
  dict_setitem k (f k) (tabulate f keys) = tabulate f (keys ++ [k]).
Proof.
  induction keys as [|x t IH]; simpl; [reflexivity|].
  intros H. destruct (String.eqb_spec x k) as [->|_]; [tauto|].
  f_equal. apply IH. tauto.
Qed.

Lemma tabulate_getitem f keys k :
  In k keys -> dict_getitem k (tabulate f keys) = Ok (f k).
Proof.
  induction keys as [|x t IH]; simpl; [tauto|].
  intros H. destruct (String.eqb_spec x k) as [->|Hne]; [reflexivity|].
  apply IH. destruct H; [contradiction|assumption].
Qed.

Lemma tabulate_ext f g keys :
  (forall k, In k keys -> g k = f k) -> tabulate g keys = tabulate f keys.
Proof.
  intros H. apply map_ext_in. intros k Hk. now rewrite H.
Qed.

Lemma tabulate_setitem_old f g keys k :
  NoDup keys -> In k keys ->
  (forall k', k' <> k -> g k' = f k') ->
  dict_setitem k (g k) (tabulate f keys) = tabulate g keys.
Proof.
  intros Hnd Hin Hfg. induction Hnd as [|x t Hx Hnd IH]; simpl.
  - destruct Hin.
  - destruct (String.eqb_spec x k) as [->|Hne].
    + f_equal. symmetry. apply tabulate_ext.
      intros k' Hk'. apply Hfg. intros ->. contradiction.
    + rewrite (Hfg x Hne). f_equal. apply IH.
      destruct Hin; [contradiction|assumption].
Qed.
End Tabulate.

(** ** The grouping loop *)

Lemma with_log_nil (self : QCAlgorithm) : with_log self [] = self.
Proof. destruct self. unfold with_log. simpl. now rewrite app_nil_r. Qed.

Lemma with_log_app (self : QCAlgorithm) (a b : list LogLine) :
  with_log (with_log self a) b = with_log self (a ++ b).
Proof. unfold with_log. simpl. now rewrite app_assoc. Qed.

Lemma records_of_app (s : string) (a b : list Datum) :
  records_of s (a ++ b) = records_of s a ++ records_of s b.
Proof. apply filter_app. Qed.

Lemma records_of_absent (s : string) (data : list Datum) :
  ~ In s (map Symbol data) -> records_of s data = [].
Proof.
  induction data as [|x t IH]; simpl; [reflexivity|].
  intros H. destruct (String.eqb_spec (Symbol x) s) as [Heq|_]; [tauto|].
  apply IH. tauto.
Qed.

Lemma records_of_length_In (s : string) (data : list Datum) :
  0 < length (records_of s data) -> In s (map Symbol data).
Proof.
  intros H. destruct (in_dec string_dec s (map Symbol data)) as [Hin|Hnin].
  - exact Hin.
  - rewrite records_of_absent in H by exact Hnin. simpl in H. lia.
Qed.

(** One turn of the loop takes the grouping of the records seen so far to
    the grouping with the new record, and logs one line. *)
Lemma group_datum_step (pre : list Datum) (x : Datum) (self : QCAlgorithm) :
  group_datum x (grouping pre) self
  = (with_log self (log_data [x]), Ok (grouping (pre ++ [x]))).
Proof.
  unfold group_datum, bind, lift, Log. simpl. f_equal.
  set (s := Symbol x). set (f := fun k => records_of k pre).
  set (keys := first_occurrences (map Symbol pre)).
  set (keys' := first_occurrences (map Symbol (pre ++ [x]))).
  assert (Hin' : In s keys').
  { apply first_occurrences_In. rewrite map_app. apply in_or_app.
    right. now left. }
  assert (Hsd : (if negb (dict_contains s (grouping pre))
                 then dict_setitem s [] (grouping pre)
                 else grouping pre) = tabulate f keys').
  { change (grouping pre) with (tabulate f keys).
    unfold keys'. rewrite map_app. simpl. fold s.
    destruct (dict_contains s (tabulate f keys)) eqn:Hc; simpl.
    - apply tabulate_contains in Hc. unfold keys in Hc.
      rewrite first_occurrences_In in Hc.
      now rewrite first_occurrences_snoc_old.
    - assert (Hnin : ~ In s keys).
      { intros H. apply (tabulate_contains f) in H. congruence. }
      assert (Hnin' : ~ In s (map Symbol pre)).
      { intros H. apply Hnin. now apply first_occurrences_In. }
      rewrite first_occurrences_snoc_new by exact Hnin'.
      rewrite <- tabulate_setitem_new by exact Hnin.
      replace (f s) with (@nil Datum); [reflexivity|].
      symmetry. now apply records_of_absent. }
  rewrite Hsd. unfold dict_append_at.
  rewrite tabulate_getitem by exact Hin'. simpl. f_equal.
  change (grouping (pre ++ [x]))
    with (tabulate (fun k => records_of k (pre ++ [x])) keys').
  assert (Hs : f s ++ [x] = records_of s (pre ++ [x])).
  { rewrite records_of_app. unfold f. simpl. fold s.
    now rewrite String.eqb_refl. }
  rewrite Hs.
  apply (tabulate_setitem_old f (fun k => records_of k (pre ++ [x])) keys' s).
  - apply first_occurrences_NoDup.
  - exact Hin'.
  - intros k' Hne. rewrite records_of_app. unfold f. simpl.
    fold s. destruct (String.eqb_spec s k') as [Heq|_]; [congruence|].
    apply app_nil_r.
Qed.

Lemma grouping_loop (data pre : list Datum) (self : QCAlgorithm) :
  for_each data group_datum (grouping pre) self
  = (with_log self (log_data data), Ok (grouping (pre ++ data))).
Proof.
  revert pre self. induction data as [|x t IH]; intros pre self; simpl.
  - unfold ret. now rewrite with_log_nil, app_nil_r.
  - unfold bind. rewrite group_datum_step.
    rewrite IH, with_log_app. simpl.
    now rewrite <- app_assoc.
Qed.

(** ** The selection rule *)

Lemma py_sum_from (l : list Q) (a : Q) :
  (fold_left Qplus l a == a + fold_left Qplus l 0)%Q.
Proof.
  revert a. induction l as [|q t IH]; intros a; simpl.
  - ring.
  - rewrite (IH (a + q)%Q), (IH (0 + q)%Q). ring.
Qed.

Lemma products_total (d : list Datum) :
  exists l, products d = Ok l /\ (py_sum l == total_contribution d)%Q.
Proof.
  induction d as [|x t [l [Hl Hsum]]]; simpl.
  - exists []. split; [reflexivity|]. unfold py_sum. simpl. reflexivity.
  - unfold contribution.
    destruct (Shares x) as [s|]; destruct (PricePerShare x) as [p|]; simpl;
      rewrite Hl; simpl.
    + exists ((inject_Z s * p)%Q :: l). split; [reflexivity|].
      unfold py_sum in *. simpl. rewrite py_sum_from, Hsum. ring.
    + exists l. split; [reflexivity|]. rewrite Hsum. ring.
    + exists l. split; [reflexivity|]. rewrite Hsum. ring.
    + exists l. split; [reflexivity|]. rewrite Hsum. ring.
Qed.

Lemma notional_total (d : list Datum) :
  exists q, notional d = Ok q /\ (q == total_contribution d)%Q.
Proof.
  destruct (products_total d) as [l [Hl Hsum]].
  exists (py_sum l). unfold notional. rewrite Hl. simpl. now split.
Qed.

Lemma Qgt_bool_iff (a b : Q) : Qgt_bool a b = true <-> (b < a)%Q.
Proof. unfold Qgt_bool, Qlt. apply Z.ltb_lt. Qed.

Lemma Qgt_bool_compat (a a' b : Q) :
  (a == a')%Q -> Qgt_bool a b = Qgt_bool a' b.
Proof.
  intros H. apply eq_true_iff_eq. rewrite !Qgt_bool_iff. now rewrite H.
Qed.

Lemma criteria_qualifies (d : list Datum) : criteria d = Ok (qualifies d).
Proof.
  unfold criteria, qualifies.
  destruct (2 <=? length d); simpl; [|reflexivity].
  destruct (notional_total d) as [q [Hq Heq]]. rewrite Hq. simpl.
  f_equal. now apply Qgt_bool_compat.
Qed.

Lemma select_symbols_filter (items : list (string * list Datum)) :
  select_symbols items
  = Ok (map fst (filter (fun kv => qualifies (snd kv)) items)).
Proof.
  induction items as [|[s d] t IH]; simpl; [reflexivity|].
  rewrite criteria_qualifies, IH. simpl.
  now destruct (qualifies d).
Qed.

Lemma select_symbols_grouping (data : list Datum) :
  select_symbols (dict_items (grouping data)) = Ok (selected data).
Proof.
  rewrite select_symbols_filter. f_equal.
  unfold dict_items, grouping, selected.
  induction (first_occurrences (map Symbol data)) as [|s t IH]; simpl.
  - reflexivity.
  - destruct (qualifies (records_of s data)); simpl; now rewrite IH.
Qed.

(** The whole method, as a function of the batch and the object. *)
Lemma UniverseSelection_run (data : list Datum) (self : QCAlgorithm) :
  UniverseSelection data self
  = (with_log self (log_data data), Ok (selected data)).
Proof.
  unfold UniverseSelection, bind.
  change (@nil (string * list Datum)) with (grouping []).
  rewrite grouping_loop. simpl. unfold lift.
  now rewrite select_symbols_grouping.
Qed.

Lemma selection_selected (self : QCAlgorithm) (data : list Datum) :
  selection self data = Ok (selected data).
Proof. unfold selection. now rewrite UniverseSelection_run. Qed.

Lemma selected_In (data : list Datum) (s : string) :
  In s (selected data)
  <-> 2 <= length (records_of s data)
      /\ (100000 < total_contribution (records_of s data))%Q.
Proof.
  unfold selected, qualifies.
  rewrite filter_In, first_occurrences_In, andb_true_iff, Nat.leb_le,
    Qgt_bool_iff.
  split; [tauto|]. intros [Hlen Hq]. split; [|tauto].
  apply records_of_length_In. lia.
Qed.

(** ** Order of the result *)




(** ** The history check *)

Lemma for_eachR_check (history : list (list Datum)) :
  let body := fun dataForDate : list Datum =>
    if length dataForDate <? 300
    then Raise (ValueError "Unexpected historical universe data!")
    else Ok tt in
  (Exists (fun p => length p < 300) history
   /\ for_eachR history body
      = Raise (ValueError "Unexpected historical universe data!"))
  \/ (~ Exists (fun p => length p < 300) history
      /\ for_eachR history body = Ok tt).
Proof.
  intros body. induction history as [|p t IH]; simpl.
  - right. split; [|reflexivity]. intros H. inversion H.
  - unfold body at 1 3. destruct (Nat.ltb_spec (length p) 300) as [Hlt|Hge].
    + left. split; [now left|reflexivity].
    + simpl. destruct IH as [[Hex Hr]|[Hnex Hr]].
      * left. split; [now right|exact Hr].
      * right. split; [|exact Hr].
        intros H. inversion H; subst; [lia|contradiction].
Qed.

Lemma Initialize_result (history : list (list Datum)) (self : QCAlgorithm) :
  snd (Initialize history self) = check_history history.
Proof. reflexivity. Qed.

(** ** The selection in any arithmetic *)

Section AnyArithmetic.
Variable R : Arithmetic.

Lemma present_products_app (a b : list Datum) :
  present_products R (a ++ b) = present_products R a ++ present_products R b.
Proof.
  induction a as [|x t IH]; simpl; [reflexivity|].
  destruct (Shares x); destruct (PricePerShare x); simpl; now rewrite IH.
Qed.

Lemma present_products_skip (x : Datum) (t : list Datum) :
  Shares x = None \/ PricePerShare x = None ->
  present_products R (x :: t) = present_products R t.
Proof.
  simpl. intros [-> | ->]; [reflexivity|]. now destruct (Shares x).
Qed.

Lemma Runtime_products_present (d : list Datum) :
  Runtime.products R d = Ok (present_products R d).
Proof.
  induction d as [|x t IH]; simpl; [reflexivity|].
  destruct (Shares x); destruct (PricePerShare x); simpl; rewrite IH;
    reflexivity.
Qed.

Lemma Runtime_notional_computed (d : list Datum) :
  Runtime.notional R d = Ok (computed_sum R d).
Proof.
  unfold Runtime.notional. now rewrite Runtime_products_present.
Qed.

Lemma Runtime_criteria_qualifies (d : list Datum) :
  Runtime.criteria R d = Ok (qualifies_in R d).
Proof.
  unfold Runtime.criteria, qualifies_in.
  destruct (2 <=? length d); simpl; [|reflexivity].
  now rewrite Runtime_notional_computed.
Qed.

Lemma Runtime_select_symbols_filter (items : list (string * list Datum)) :
  Runtime.select_symbols R items
  = Ok (map fst (filter (fun kv => qualifies_in R (snd kv)) items)).
Proof.
  induction items as [|[s d] t IH]; simpl; [reflexivity|].
  rewrite Runtime_criteria_qualifies, IH. simpl.
  now destruct (qualifies_in R d).
Qed.

Lemma Runtime_select_symbols_grouping (data : list Datum) :
  Runtime.select_symbols R (dict_items (grouping data))
  = Ok (selected_in R data).
Proof.
  rewrite Runtime_select_symbols_filter. f_equal.
  unfold dict_items, grouping, selected_in.
  induction (first_occurrences (map Symbol data)) as [|s t IH]; simpl.
  - reflexivity.
  - destruct (qualifies_in R (records_of s data)); simpl; now rewrite IH.
Qed.

Lemma Runtime_UniverseSelection_run (data : list Datum) (self : QCAlgorithm) :
  Runtime.UniverseSelection R data self
  = (with_log self (log_data data), Ok (selected_in R data)).
Proof.
  unfold Runtime.UniverseSelection, bind.
  change (@nil (string * list Datum)) with (grouping []).
  rewrite grouping_loop. simpl. unfold lift.
  now rewrite Runtime_select_symbols_grouping.
Qed.

Lemma Runtime_selection_selected (self : QCAlgorithm) (data : list Datum) :
  Runtime.selection R self data = Ok (selected_in R data).
Proof.
  unfold Runtime.selection. now rewrite Runtime_UniverseSelection_run.
Qed.

Lemma selected_in_In (data : list Datum) (s : string) :
  In s (selected_in R data)
  <-> 2 <= length (records_of s data)
      /\ num_gt R (computed_sum R (records_of s data)) (num_of_int R 100000)
         = true.
Proof.
  unfold selected_in, qualifies_in.
  rewrite filter_In, first_occurrences_In, andb_true_iff, Nat.leb_le.
  split; [tauto|]. intros [Hlen Hq]. split; [|tauto].
  apply records_of_length_In. lia.
Qed.

End AnyArithmetic.

(** The definitions outside [Runtime] are the instance without rounding. *)
Lemma products_exact_decimal (d : list Datum) :
  products d = Ok (present_products exact_decimal d).
Proof.
  induction d as [|x t IH]; simpl; [reflexivity|].
  destruct (Shares x); destruct (PricePerShare x); simpl; rewrite IH;
    reflexivity.
Qed.

Lemma qualifies_exact_decimal (d : list Datum) :
  qualifies_in exact_decimal d = qualifies d.
Proof.
  unfold qualifies_in, qualifies. f_equal.
  destruct (products_total d) as [l [Hl Hsum]].
  rewrite products_exact_decimal in Hl. injection Hl as <-.
  now apply Qgt_bool_compat.
Qed.

Lemma Runtime_exact_decimal (self : QCAlgorithm) (data : list Datum) :
  Runtime.UniverseSelection exact_decimal data self
  = UniverseSelection data self.
Proof.
  rewrite Runtime_UniverseSelection_run, UniverseSelection_run.
  do 2 f_equal. unfold selected_in, selected.
  apply filter_ext. intros s. apply qualifies_exact_decimal.
Qed.

(** * The claims *)

(** C1. In every arithmetic and for every batch, [UniverseSelection]
    returns a list and raises nothing, whatever fields are absent. For every
    symbol, the sum the code computes over the symbol's group exists and is
    the left-to-right sum, from 0, of the products of the records that have
    both fields, and it is this sum that decides with the record count
    whether the symbol is returned. A record lacking [Shares] or
    [PricePerShare] adds nothing: the sum of a group with such a record is
    the sum of the group without it. A record with both fields, put last,
    adds its product [Shares * PricePerShare] to the sum of the others. *)
Theorem absent_fields_are_skipped
        (R : Arithmetic) (self : QCAlgorithm) (data : list Datum) :
  exists l,
    Runtime.selection R self data = Ok l
    /\ (forall s, exists q,
           Runtime.notional R (records_of s data) = Ok q
           /\ q = computed_sum R (records_of s data)
           /\ (In s l <-> 2 <= length (records_of s data)
                          /\ num_gt R q (num_of_int R 100000) = true))
    /\ (forall d1 x d2,
           Shares x = None \/ PricePerShare x = None ->
           Runtime.notional R (d1 ++ x :: d2) = Runtime.notional R (d1 ++ d2))
    /\ (forall d x sh p,
           Shares x = Some sh -> PricePerShare x = Some p ->
           exists q,
             Runtime.notional R d = Ok q
             /\ Runtime.notional R (d ++ [x])
                = Ok (num_add R q (num_mul R sh p))).
Proof.
  exists (selected_in R data). split; [apply Runtime_selection_selected|].
  split; [|split].
  - intros s. exists (computed_sum R (records_of s data)).
    split; [apply Runtime_notional_computed|]. split; [reflexivity|].
    apply selected_in_In.
  - intros d1 x d2 Habs. rewrite !Runtime_notional_computed. f_equal.
    unfold computed_sum. rewrite !present_products_app.
    now rewrite present_products_skip.
  - intros d x sh p Hs Hp. exists (computed_sum R d).
    rewrite !Runtime_notional_computed. split; [reflexivity|]. f_equal.
    unfold computed_sum. rewrite present_products_app. simpl.
    rewrite Hs, Hp. now rewrite fold_left_app.
Qed.

(** C2. For every batch, a symbol whose group has fewer than 2 records is
    not in the list that [UniverseSelection] returns. *)
Theorem fewer_than_two_records_excluded
        (self : QCAlgorithm) (data : list Datum) (s : string) :
  length (records_of s data) < 2 ->
  exists l, selection self data = Ok l /\ ~ In s l.
Proof.
  intros Hlen. exists (selected data). split; [apply selection_selected|].
  rewrite selected_In. lia.
Qed.

Lemma fewer_than_two_records_excluded_witness :
  exists l, selection initial_algorithm example_batch = Ok l /\ ~ In "B" l.
Proof.
  apply (fewer_than_two_records_excluded initial_algorithm example_batch "B").
  vm_compute. lia.
Defined.

(** C3. In every arithmetic and for every batch, a symbol with at least 2
    records is in the returned list if and only if the notional the code
    computes for its group, the left-to-right sum of the products of its
    records that have both fields, is strictly greater than 100000. In
    decimal arithmetic two records of 50000 each (exactly 100000) are
    excluded, and 50000 with 50000.01 (100000.01) are included. *)
Theorem selected_iff_computed_notional_above_threshold
        (R : Arithmetic) (self : QCAlgorithm) (data : list Datum) (s : string) :
  2 <= length (records_of s data) ->
  (exists l q,
      Runtime.selection R self data = Ok l
      /\ Runtime.notional R (records_of s data) = Ok q
      /\ q = computed_sum R (records_of s data)
      /\ (In s l <-> num_gt R q (num_of_int R 100000) = true))
  /\ Runtime.notional exact_decimal threshold_batch
     = Ok (0 + 50000 + 50000)%Q
  /\ Runtime.selection exact_decimal self threshold_batch = Ok []
  /\ Runtime.notional exact_decimal above_threshold_batch
     = Ok (0 + 50000 + (5000001 # 100))%Q
  /\ Runtime.selection exact_decimal self above_threshold_batch = Ok ["A"].
Proof.
  intros Hlen. split.
  - exists (selected_in R data), (computed_sum R (records_of s data)).
    split; [apply Runtime_selection_selected|].
    split; [apply Runtime_notional_computed|]. split; [reflexivity|].
    rewrite selected_in_In. tauto.
  - rewrite !Runtime_selection_selected. repeat split; reflexivity.
Qed.

Lemma selected_iff_computed_notional_above_threshold_witness :
  (exists l q,
      Runtime.selection exact_decimal initial_algorithm example_batch = Ok l
      /\ Runtime.notional exact_decimal (records_of "A" example_batch) = Ok q
      /\ q = computed_sum exact_decimal (records_of "A" example_batch)
      /\ (In "A" l
          <-> num_gt exact_decimal q (num_of_int exact_decimal 100000) = true))
  /\ Runtime.notional exact_decimal threshold_batch
     = Ok (0 + 50000 + 50000)%Q
  /\ Runtime.selection exact_decimal initial_algorithm threshold_batch = Ok []
  /\ Runtime.notional exact_decimal above_threshold_batch
     = Ok (0 + 50000 + (5000001 # 100))%Q
  /\ Runtime.selection exact_decimal initial_algorithm above_threshold_batch
     = Ok ["A"].
Proof.
  apply (selected_iff_computed_notional_above_threshold
           exact_decimal initial_algorithm example_batch "A").
  vm_compute. lia.
Defined.

(** C4. For every batch, every symbol of the returned list is the symbol
    of some record of the batch; on the empty batch the list is empty. *)
Theorem selection_subset_of_batch_symbols
        (self : QCAlgorithm) (data : list Datum) :
  (exists l, selection self data = Ok l /\ incl l (map Symbol data))
  /\ selection self [] = Ok [].
Proof.
  split; [|reflexivity].
  exists (selected data). split; [apply selection_selected|].
  intros s Hs. apply selected_In in Hs. destruct Hs as [Hlen _].
  apply records_of_length_In. lia.
Qed.

(** C5. On the batch A 1000 x 60, A 1000 x 50, B 1 x 1 the method returns
    exactly the list with the one symbol A, and logs the three records. *)
Theorem example_batch_selects_A (self : QCAlgorithm) :
  UniverseSelection example_batch self
  = (with_log self (log_data example_batch), Ok ["A"])
  /\ selection self example_batch = Ok ["A"]
  /\ (exists q, notional (records_of "A" example_batch) = Ok q
                /\ (q == 110000)%Q)
  /\ length (records_of "A" example_batch) = 2
  /\ length (records_of "B" example_batch) = 1.
Proof.
  rewrite selection_selected, UniverseSelection_run.
  repeat split; try reflexivity.
  eexists. split; reflexivity.
Qed.

(** C6. For every batch, the returned list has no duplicate symbol. *)
Theorem selection_NoDup (self : QCAlgorithm) (data : list Datum) :
  exists l, selection self data = Ok l /\ NoDup l.
Proof.
  exists (selected data). split; [apply selection_selected|].
  apply NoDup_filter, first_occurrences_NoDup.
Qed.

(** C7. The returned list depends on the batch only: it is the same for
    any two algorithm objects, and the same when the method is called again
    on the object the first call left. The only trace a call leaves on the
    object is the log lines it appended, which the method never reads. *)
Theorem selection_stateless
        (self self' : QCAlgorithm) (data : list Datum) :
  selection self data = selection self' data
  /\ selection (fst (UniverseSelection data self)) data = selection self data
  /\ fst (UniverseSelection data self) = with_log self (log_data data).
Proof.
  rewrite !selection_selected, UniverseSelection_run. now repeat split.
Qed.

(** C8. The history check of [Initialize] raises if and only if the
    history has a number of periods other than 1 or some period has fewer
    than 300 records; otherwise [Initialize] returns normally. What it
    raises is a [ValueError] with one of the two messages of the source. *)
Theorem Initialize_raises_iff_bad_history
        (history : list (list Datum)) (self : QCAlgorithm) :
  ((exists e, snd (Initialize history self) = Raise e) <-> bad_history history)
  /\ (snd (Initialize history self) = Ok tt <-> ~ bad_history history)
  /\ (snd (Initialize history self) = Ok tt
      \/ snd (Initialize history self)
         = Raise (ValueError ("Unexpected history count "
                                ++ string_of_nat (length history)
                                ++ "! Expected 1")%string)
      \/ snd (Initialize history self)
         = Raise (ValueError "Unexpected historical universe data!")).
Proof.
  rewrite Initialize_result. unfold check_history, bad_history.
  destruct (Nat.eqb_spec (length history) 1) as [Hone|Hne]; simpl.
  - destruct (for_eachR_check history) as [[Hex Hr]|[Hnex Hr]];
      cbv zeta in Hr; rewrite Hr.
    + split; [|split].
      * split; [tauto|]. intros _. now eexists.
      * split; [discriminate|tauto].
      * tauto.
    + split; [|split].
      * split; [intros [e He]; discriminate|].
        intros [H|H]; [congruence|tauto].
      * split; [|reflexivity]. intros _ [H|H]; [congruence|tauto].
      * tauto.
  - split; [|split].
    + split; [tauto|]. intros _. now eexists.
    + split; [discriminate|tauto].
    + tauto.
Qed.


(** C10. A record without numeric fields still counts as a record of its
    symbol. In every arithmetic: when a symbol has exactly two records, one
    lacking [Shares] or [PricePerShare], and the notional the code computes
    for the other record alone is greater than 100000, the symbol is in the
    returned list. *)
Theorem absent_record_still_counts
        (R : Arithmetic) (self : QCAlgorithm) (data : list Datum) (s : string)
        (absent present : Datum) (q : number R) :
  records_of s data = [absent; present]
  \/ records_of s data = [present; absent] ->
  Shares absent = None \/ PricePerShare absent = None ->
  Runtime.notional R [present] = Ok q ->
  num_gt R q (num_of_int R 100000) = true ->
  exists l, Runtime.selection R self data = Ok l /\ In s l.
Proof.
  intros Hrec Habs Hq Hgt. exists (selected_in R data).
  split; [apply Runtime_selection_selected|]. apply selected_in_In.
  rewrite Runtime_notional_computed in Hq. injection Hq as <-.
  assert (Hsum : computed_sum R (records_of s data) = computed_sum R [present]).
  { unfold computed_sum. f_equal. destruct Hrec as [-> | ->].
    - now apply present_products_skip.
    - change [present; absent] with ([present] ++ [absent]).
      rewrite present_products_app, (present_products_skip R absent []) by exact Habs.
      apply app_nil_r. }
  rewrite Hsum. split; [|exact Hgt].
  destruct Hrec as [-> | ->]; simpl; lia.
Qed.

Lemma absent_record_still_counts_witness :
  exists l,
    Runtime.selection exact_decimal initial_algorithm half_absent_batch = Ok l
    /\ In "A" l.
Proof.
  apply (absent_record_still_counts
           exact_decimal initial_algorithm half_absent_batch "A"
           (mkDatum "A" None None None)
           (mkDatum "A" (Some 2000%Z) (Some 75%Q) (Some 10%Z))
           (0 + inject_Z 2000 * 75)%Q).
  - left. reflexivity.
  - left. reflexivity.
  - reflexivity.
  - vm_compute. reflexivity.
Defined.

(** * Further properties of the code *)

(** ** Initialize *)

Lemma for_eachR_sizes (body : nat -> result unit) (h h' : list (list Datum)) :
  map (@length Datum) h = map (@length Datum) h' ->
  for_eachR h (fun p => body (length p))
  = for_eachR h' (fun p => body (length p)).
Proof.
  revert h'. induction h as [|p t IH]; intros [|p' t'] H; simpl in *;
    try discriminate; [reflexivity|].
  injection H as Hp Ht. rewrite Hp, (IH t' Ht). reflexivity.
Qed.

(** X1. The outcome of [Initialize] depends only on the shape of the
    history, that is the number of periods and the number of records of
    each: two histories with the same sizes give the same outcome, whatever
    the records hold and whatever the object was. *)
Theorem Initialize_outcome_depends_on_sizes
        (h h' : list (list Datum)) (self self' : QCAlgorithm) :
  map (@length Datum) h = map (@length Datum) h' ->
  snd (Initialize h self) = snd (Initialize h' self').
Proof.
  intros H. rewrite !Initialize_result. unfold check_history.
  assert (Hlen : length h = length h').
  { rewrite <- (length_map (@length Datum) h), H. apply length_map. }
  rewrite Hlen. destruct (negb (length h' =? 1)); [reflexivity|].
  apply (for_eachR_sizes
           (fun n => if n <? 300
                     then Raise (ValueError "Unexpected historical universe data!")
                     else Ok tt)).
  exact H.
Qed.

Lemma Initialize_outcome_depends_on_sizes_witness :
  snd (Initialize [period_of 300 datum_A] initial_algorithm)
  = snd (Initialize [period_of 300 datum_B]
           (configured initial_algorithm)).
Proof.
  apply Initialize_outcome_depends_on_sizes.
  vm_compute. reflexivity.
Defined.

(** X2. The count check comes first: a history whose number of periods is
    not 1 raises the count message, which carries that number, also when
    its periods are short; a history of one period raises the data message
    when the period has fewer than 300 records and passes from 300 on. *)
Theorem Initialize_error_precedence
        (h : list (list Datum)) (self : QCAlgorithm) :
  (length h <> 1 ->
   snd (Initialize h self)
   = Raise (ValueError ("Unexpected history count "
                          ++ string_of_nat (length h)
                          ++ "! Expected 1")%string))
  /\ (forall p, h = [p] ->
        snd (Initialize h self)
        = if length p <? 300
          then Raise (ValueError "Unexpected historical universe data!")
          else Ok tt).
Proof.
  rewrite Initialize_result. unfold check_history. split.
  - intros Hne. destruct (Nat.eqb_spec (length h) 1); [contradiction|].
    reflexivity.
  - intros p ->. simpl. now destruct (length p <? 300).
Qed.

(** X3. [Initialize] sets resolution, dates and cash and registers the
    universe before it looks at the history: the object it leaves is the
    configured one whether the check raises or not, earlier settings are
    overwritten, and nothing is logged. *)
Theorem Initialize_configures_before_check
        (h : list (list Datum)) (self : QCAlgorithm) :
  fst (Initialize h self) = configured self
  /\ LogOutput (fst (Initialize h self)) = LogOutput self
  /\ (forall h' self',
        Universes self' = Universes self ->
        LogOutput self' = LogOutput self ->
        fst (Initialize h' self') = fst (Initialize h self)).
Proof.
  repeat split. intros h' self' HU HL.
  unfold Initialize, bind. simpl. now rewrite HU, HL.
Qed.

(** ** The grouping built by the loop *)

Lemma records_of_In (s : string) (data : list Datum) (x : Datum) :
  In x (records_of s data) <-> In x data /\ Symbol x = s.
Proof. unfold records_of. now rewrite filter_In, String.eqb_eq. Qed.

Lemma records_of_idem (s : string) (data : list Datum) :
  records_of s (records_of s data) = records_of s data.
Proof.
  induction data as [|x t IH]; simpl; [reflexivity|].
  destruct (String.eqb (Symbol x) s) eqn:E; simpl; [|exact IH].
  now rewrite E, IH.
Qed.

Lemma records_of_nonempty (s : string) (data : list Datum) :
  In s (map Symbol data) -> records_of s data <> [].
Proof.
  intros H. apply in_map_iff in H. destruct H as [x [Hs Hx]].
  assert (Hin : In x (records_of s data)) by now apply records_of_In.
  intros E. rewrite E in Hin. destruct Hin.
Qed.

(** Each record falls under as many keys as carry its symbol. *)
Lemma group_sizes_cons (keys : list string) (x : Datum) (t : list Datum) :
  list_sum (map (fun k => length (records_of k (x :: t))) keys)
  = count_occ string_dec keys (Symbol x)
    + list_sum (map (fun k => length (records_of k t)) keys).
Proof.
  induction keys as [|k r IH]; [reflexivity|].
  change (length (records_of k (x :: t))
          + list_sum (map (fun k => length (records_of k (x :: t))) r)
          = count_occ string_dec (k :: r) (Symbol x)
            + (length (records_of k t)
               + list_sum (map (fun k => length (records_of k t)) r))).
  rewrite IH. simpl. destruct (string_dec k (Symbol x)) as [->|Hne].
  - rewrite String.eqb_refl. simpl. lia.
  - destruct (String.eqb_spec (Symbol x) k) as [Heq|_]; [congruence|lia].
Qed.

Lemma group_sizes_le (keys : list string) (data : list Datum) :
  NoDup keys ->
  list_sum (map (fun k => length (records_of k data)) keys) <= length data.
Proof.
  intros Hnd. induction data as [|x t IH].
  - clear. induction keys as [|k r IHk]; simpl; [lia|exact IHk].
  - rewrite group_sizes_cons.
    pose proof (proj1 (NoDup_count_occ string_dec keys) Hnd (Symbol x)).
    simpl length. lia.
Qed.

Lemma group_sizes_eq (keys : list string) (data : list Datum) :
  NoDup keys -> incl (map Symbol data) keys ->
  list_sum (map (fun k => length (records_of k data)) keys) = length data.
Proof.
  intros Hnd. induction data as [|x t IH]; intros Hincl.
  - clear. induction keys as [|k r IHk]; simpl; [reflexivity|exact IHk].
  - rewrite group_sizes_cons.
    pose proof (proj1 (NoDup_count_occ string_dec keys) Hnd (Symbol x)).
    assert (Hin : In (Symbol x) keys) by (apply Hincl; now left).
    apply (count_occ_In string_dec) in Hin.
    rewrite IH; [simpl length; lia|]. intros k Hk. apply Hincl. now right.
Qed.

Lemma tabulate_getitem_missing {V : Type} (f : string -> V)
      (keys : list string) (k : string) :
  ~ In k keys -> dict_getitem k (tabulate f keys) = Raise (KeyError k).
Proof.
  induction keys as [|x t IH]; simpl; [reflexivity|].
  intros H. destruct (String.eqb_spec x k) as [->|_]; [tauto|].
  apply IH. tauto.
Qed.

Lemma grouped_grouping (self : QCAlgorithm) (data : list Datum) :
  grouped self data = Ok (grouping data).
Proof.
  unfold grouped. change (@nil (string * list Datum)) with (grouping []).
  now rewrite grouping_loop.
Qed.

(** X4. When the loop is over, the keys of [symbol_data] are the distinct
    symbols of the batch in first-occurrence order; looking up a symbol of
    the batch gives exactly its records in batch order, looking up any other
    symbol raises [KeyError]; no key holds an empty list; and the lists
    together hold as many records as the batch. *)
Theorem grouping_partitions_batch (self : QCAlgorithm) (data : list Datum) :
  exists symbol_data,
    grouped self data = Ok symbol_data
    /\ map fst symbol_data = first_occurrences (map Symbol data)
    /\ NoDup (map fst symbol_data)
    /\ (forall s, In s (map Symbol data) ->
                  dict_getitem s symbol_data = Ok (records_of s data))
    /\ (forall s, ~ In s (map Symbol data) ->
                  dict_getitem s symbol_data = Raise (KeyError s))
    /\ Forall (fun kv => snd kv <> []) symbol_data
    /\ group_sizes symbol_data = length data.
Proof.
  exists (grouping data). split; [apply grouped_grouping|].
  assert (Hkeys : map fst (grouping data)
                  = first_occurrences (map Symbol data)).
  { unfold grouping. rewrite map_map. simpl. apply map_id. }
  split; [exact Hkeys|]. split.
  { rewrite Hkeys. apply first_occurrences_NoDup. }
  split.
  { intros s Hs. unfold grouping.
    apply (tabulate_getitem (fun k => records_of k data)).
    now apply first_occurrences_In. }
  split.
  { intros s Hs. unfold grouping.
    apply (tabulate_getitem_missing (fun k => records_of k data)).
    now rewrite first_occurrences_In. }
  split.
  { unfold grouping. apply Forall_forall. intros [k d] Hkd.
    apply in_map_iff in Hkd. destruct Hkd as [k' [E Hk']].
    inversion E; subst. simpl. apply records_of_nonempty.
    now apply first_occurrences_In. }
  unfold group_sizes, grouping. rewrite map_map. simpl.
  apply group_sizes_eq; [apply first_occurrences_NoDup|].
  intros k Hk. now apply first_occurrences_In.
Qed.

(** ** Size of the result *)

Lemma selected_sizes (data : list Datum) (l : list string) :
  (forall s, In s l -> 2 <= length (records_of s data)) ->
  2 * length l <= list_sum (map (fun k => length (records_of k data)) l).
Proof.
  induction l as [|k r IH]; intros H; simpl; [lia|].
  assert (2 <= length (records_of k data)) by (apply H; now left).
  assert (2 * length r
          <= list_sum (map (fun k => length (records_of k data)) r)).
  { apply IH. intros s Hs. apply H. now right. }
  lia.
Qed.

(** X5. Every selected symbol has its own two records at least, so the
    result never has more symbols than half the number of records of the
    batch. *)
Theorem selection_at_most_half_of_batch
        (self : QCAlgorithm) (data : list Datum) :
  exists l, selection self data = Ok l /\ 2 * length l <= length data.
Proof.
  exists (selected data). split; [apply selection_selected|].
  transitivity
    (list_sum (map (fun k => length (records_of k data)) (selected data))).
  - apply selected_sizes. intros s Hs. now apply selected_In in Hs.
  - apply group_sizes_le. apply NoDup_filter, first_occurrences_NoDup.
Qed.

(** ** Order of the batch *)

Lemma records_of_Permutation (s : string) (a b : list Datum) :
  Permutation a b -> Permutation (records_of s a) (records_of s b).
Proof.
  intros H. induction H as [|x a b H IH|x y a|a b c H1 IH1 H2 IH2]; simpl.
  - constructor.
  - destruct (String.eqb (Symbol x) s); [now constructor|exact IH].
  - destruct (String.eqb (Symbol x) s); destruct (String.eqb (Symbol y) s);
      try apply Permutation_refl.
    apply perm_swap.
  - now transitivity (records_of s b).
Qed.

Lemma total_contribution_Permutation (a b : list Datum) :
  Permutation a b -> (total_contribution a == total_contribution b)%Q.
Proof.
  intros H. induction H as [|x a b H IH|x y a|a b c H1 IH1 H2 IH2]; simpl.
  - reflexivity.
  - now rewrite IH.
  - ring.
  - now rewrite IH1.
Qed.

Lemma selected_Permutation_In (a b : list Datum) (s : string) :
  Permutation a b -> In s (selected a) -> In s (selected b).
Proof.
  intros H Hs. apply selected_In in Hs. apply selected_In.
  pose proof (records_of_Permutation s a b H) as Hp.
  rewrite <- (Permutation_length Hp).
  now rewrite <- (total_contribution_Permutation _ _ Hp).
Qed.

(** X6. In every arithmetic, two batches in which every symbol has the
    same records in the same order select the same symbols: interleaving
    the records of different symbols in another way changes at most the
    order of the result. *)
Theorem selection_of_regrouped_batch
        (R : Arithmetic) (self : QCAlgorithm) (data data' : list Datum) :
  (forall s, records_of s data = records_of s data') ->
  exists l l',
    Runtime.selection R self data = Ok l
    /\ Runtime.selection R self data' = Ok l'
    /\ Permutation l l' /\ (forall s, In s l <-> In s l').
Proof.
  intros H. exists (selected_in R data), (selected_in R data').
  rewrite !Runtime_selection_selected.
  assert (Hiff : forall s,
             In s (selected_in R data) <-> In s (selected_in R data')).
  { intros s. now rewrite !selected_in_In, H. }
  repeat split; try apply Hiff.
  apply NoDup_Permutation; try exact Hiff;
    apply NoDup_filter, first_occurrences_NoDup.
Qed.

Lemma selection_of_regrouped_batch_witness :
  exists l l',
    Runtime.selection exact_decimal initial_algorithm interleaved_batch = Ok l
    /\ Runtime.selection exact_decimal initial_algorithm regrouped_batch
       = Ok l'
    /\ Permutation l l' /\ (forall s, In s l <-> In s l').
Proof.
  apply selection_of_regrouped_batch.
  intros s. destruct (String.eqb_spec "A" s) as [<-|HA]; [reflexivity|].
  apply String.eqb_neq in HA.
  unfold interleaved_batch, regrouped_batch, records_of.
  cbn [filter Symbol]. rewrite HA.
  destruct (String.eqb "B" s); reflexivity.
Defined.

(** ** Batches over different symbols *)

Lemma filter_all (p : string -> bool) (l : list string) :
  (forall y, In y l -> p y = true) -> filter p l = l.
Proof.
  intros H. apply forallb_filter_id. now apply forallb_forall.
Qed.

Lemma first_occurrences_app_disjoint (l1 l2 : list string) :
  (forall s, In s l1 -> ~ In s l2) ->
  first_occurrences (l1 ++ l2) = first_occurrences l1 ++ first_occurrences l2.
Proof.
  induction l1 as [|x t IH]; intros H; simpl; [reflexivity|].
  rewrite IH by (intros s Hs; apply H; now right).
  rewrite filter_app. f_equal. f_equal.
  apply filter_all. intros y Hy. apply negb_true_iff, String.eqb_neq.
  intros ->. rewrite first_occurrences_In in Hy.
  apply (H x); [now left|exact Hy].
Qed.

Lemma selected_app_disjoint (a b : list Datum) :
  disjoint_symbols a b -> selected (a ++ b) = selected a ++ selected b.
Proof.
  intros H. unfold selected, disjoint_symbols, Datum in *.
  rewrite map_app, (first_occurrences_app_disjoint _ _ H).
  rewrite filter_app. f_equal; apply filter_ext_in; intros s Hs;
    rewrite first_occurrences_In in Hs; rewrite records_of_app.
  - rewrite (records_of_absent s b) by now apply H.
    now rewrite app_nil_r.
  - rewrite (records_of_absent s a); [reflexivity|].
    intros Ha. now apply (H s).
Qed.

(** X7. When two batches share no symbol, selecting from their
    concatenation gives the selection of the first followed by the
    selection of the second. *)
Theorem selection_of_disjoint_batches
        (self : QCAlgorithm) (a b : list Datum) :
  disjoint_symbols a b ->
  exists la lb,
    selection self a = Ok la /\ selection self b = Ok lb
    /\ selection self (a ++ b) = Ok (la ++ lb).
Proof.
  intros H. exists (selected a), (selected b).
  rewrite !selection_selected. now rewrite selected_app_disjoint.
Qed.

Lemma selection_of_disjoint_batches_witness :
  exists la lb,
    selection initial_algorithm above_threshold_batch = Ok la
    /\ selection initial_algorithm [datum_B; datum_B] = Ok lb
    /\ selection initial_algorithm (above_threshold_batch ++ [datum_B; datum_B])
       = Ok (la ++ lb).
Proof.
  apply selection_of_disjoint_batches.
  intros s Ha Hb. simpl in Ha, Hb.
  destruct Ha as [<-|[<-|[]]]; destruct Hb as [Hb|[Hb|[]]]; discriminate Hb.
Defined.

(** ** What a selected symbol needs *)

Lemma total_contribution_positive (d : list Datum) :
  (0 < total_contribution d)%Q ->
  exists x, In x d /\ (0 < contribution x)%Q.
Proof.
  induction d as [|x t IH]; simpl; intros H.
  - exfalso. now apply (Qlt_irrefl 0).
  - destruct (Qlt_le_dec 0 (contribution x)) as [Hpos|Hle].
    + exists x. split; [now left|exact Hpos].
    + destruct IH as [y [Hy Hpos]].
      * apply Qlt_le_trans with (1 := H).
        rewrite <- (Qplus_0_l (total_contribution t)) at 2.
        now apply Qplus_le_l.
      * exists y. split; [now right|exact Hpos].
Qed.

Lemma contribution_positive (x : Datum) :
  (0 < contribution x)%Q -> positive_record x.
Proof.
  unfold contribution, positive_record.
  destruct (Shares x) as [sh|]; destruct (PricePerShare x) as [p|];
    intros H; try (exfalso; now apply (Qlt_irrefl 0)).
  now exists sh, p.
Qed.

Lemma selected_positive_record (data : list Datum) (s : string) :
  In s (selected data) ->
  exists x, In x data /\ Symbol x = s /\ positive_record x.
Proof.
  intros Hs. apply selected_In in Hs. destruct Hs as [_ Hgt].
  destruct (total_contribution_positive (records_of s data)) as [x [Hx Hpos]].
  - apply Qlt_trans with (2 := Hgt). reflexivity.
  - apply records_of_In in Hx. destruct Hx as [Hx Hsym].
    exists x. repeat split; try assumption. now apply contribution_positive.
Qed.

(** X8. Every selected symbol has a record in the batch with both numeric
    fields present and a positive product: zero and negative notionals and
    records without numbers cannot select a symbol by themselves. *)
Theorem selected_symbol_has_positive_record
        (self : QCAlgorithm) (data : list Datum) :
  exists l,
    selection self data = Ok l
    /\ forall s, In s l ->
         exists x, In x data /\ Symbol x = s /\ positive_record x.
Proof.
  exists (selected data). split; [apply selection_selected|].
  intros s. apply selected_positive_record.
Qed.

(** X9. A batch in which every record lacks [Shares] or [PricePerShare]
    selects nothing, however many records each symbol has. *)
Theorem selection_of_batch_without_numbers
        (self : QCAlgorithm) (data : list Datum) :
  (forall x, In x data -> Shares x = None \/ PricePerShare x = None) ->
  selection self data = Ok [].
Proof.
  intros H. rewrite selection_selected. f_equal.
  destruct (selected data) as [|s l] eqn:E; [reflexivity|]. exfalso.
  destruct (selected_positive_record data s) as [x [Hx [_ [sh [p [Hs [Hp _]]]]]]].
  - rewrite E. now left.
  - destruct (H x Hx); congruence.
Qed.

Lemma selection_of_batch_without_numbers_witness :
  selection initial_algorithm [datum_B; datum_B; datum_B] = Ok [].
Proof.
  apply selection_of_batch_without_numbers.
  intros x Hx. simpl in Hx.
  destruct Hx as [<-|[<-|[<-|[]]]]; left; reflexivity.
Defined.

(** ** A symbol's own records decide *)

Lemma selected_of_records_symbol (data : list Datum) (s t : string) :
  In t (selected (records_of s data)) -> t = s.
Proof.
  intros H. apply selected_In in H. destruct H as [Hlen _].
  assert (Hin : In t (map Symbol (records_of s data))).
  { apply records_of_length_In. lia. }
  apply in_map_iff in Hin. destruct Hin as [x [Hx Hin]].
  apply records_of_In in Hin. destruct Hin as [_ Hs]. congruence.
Qed.

Lemma selected_of_records_In (data : list Datum) (s : string) :
  In s (selected (records_of s data)) <-> In s (selected data).
Proof. now rewrite !selected_In, records_of_idem. Qed.

Lemma selected_of_records (data : list Datum) (s : string) :
  (In s (selected data) -> selected (records_of s data) = [s])
  /\ (~ In s (selected data) -> selected (records_of s data) = []).
Proof.
  pose proof (selected_of_records_symbol data s) as Hsym.
  pose proof (selected_of_records_In data s) as Hin.
  assert (Hnd : NoDup (selected (records_of s data))).
  { apply NoDup_filter, first_occurrences_NoDup. }
  destruct (selected (records_of s data)) as [|a [|b r]].
  - split; [|reflexivity]. intros H. apply (proj2 Hin) in H. destruct H.
  - rewrite (Hsym a) in * by now left. split; [reflexivity|].
    intros H. exfalso. apply H, (proj1 Hin). now left.
  - exfalso. assert (a = s) by (apply Hsym; now left).
    assert (b = s) by (apply Hsym; right; now left). subst.
    inversion Hnd as [|? ? Hn _]. apply Hn. now left.
Qed.

(** X10. Whether a symbol is selected is decided by its own records: the
    symbol is in the result for the batch exactly when the method, given
    only the symbol's records, returns the list with that one symbol; when
    it is not in the result, the method returns the empty list on them. *)
Theorem selection_decided_by_own_records
        (self : QCAlgorithm) (data : list Datum) (s : string) :
  exists l,
    selection self data = Ok l
    /\ (In s l <-> selection self (records_of s data) = Ok [s])
    /\ (~ In s l -> selection self (records_of s data) = Ok []).
Proof.
  exists (selected data). rewrite !selection_selected.
  destruct (selected_of_records data s) as [Hyes Hno].
  split; [reflexivity|]. split; [split|].
  - intros H. now rewrite Hyes.
  - intros H. injection H as H. apply (proj1 (selected_of_records_In data s)).
    rewrite H. now left.
  - intros H. now rewrite Hno.
Qed.

(** X11. Putting one more record of a selected symbol into the batch, at
    any place, keeps the symbol selected as long as the record's
    contribution is not negative (in particular when it has no numbers). *)
Theorem selection_kept_by_nonnegative_record
        (self : QCAlgorithm) (d1 d2 : list Datum) (x : Datum)
        (l : list string) :
  selection self (d1 ++ d2) = Ok l ->
  In (Symbol x) l ->
  (0 <= contribution x)%Q ->
  exists l', selection self (d1 ++ x :: d2) = Ok l' /\ In (Symbol x) l'.
Proof.
  rewrite !selection_selected. intros E Hin Hpos. injection E as <-.
  exists (selected (d1 ++ x :: d2)). split; [reflexivity|].
  apply (selected_Permutation_In (x :: d1 ++ d2));
    [apply Permutation_middle|].
  apply selected_In in Hin. destruct Hin as [Hlen Hgt].
  apply selected_In. unfold records_of in *. simpl.
  rewrite String.eqb_refl. simpl. split; [lia|].
  apply Qlt_le_trans with (1 := Hgt).
  rewrite <- (Qplus_0_l (total_contribution _)) at 1.
  now apply Qplus_le_l.
Qed.

Lemma selection_kept_by_nonnegative_record_witness :
  exists l',
    selection initial_algorithm
      ([datum_A] ++ mkDatum "A" None None None :: [datum_A; datum_A])
    = Ok l'
    /\ In "A" l'.
Proof.
  apply (selection_kept_by_nonnegative_record
           initial_algorithm [datum_A] [datum_A; datum_A]
           (mkDatum "A" None None None) ["A"]).
  - reflexivity.
  - left. reflexivity.
  - vm_compute. discriminate.
Defined.

(** ** The log *)

(** X12. A call logs one line per record of the batch, in batch order,
    after what was logged before, also for the records of symbols that are
    not selected; it changes nothing else on the object; and two calls in a
    row leave the object that one call on the concatenated batch leaves. *)
Theorem UniverseSelection_logs_every_record
        (self : QCAlgorithm) (a b : list Datum) :
  LogOutput (fst (UniverseSelection a self)) = LogOutput self ++ log_data a
  /\ length (LogOutput (fst (UniverseSelection a self)))
     = length (LogOutput self) + length a
  /\ fst (UniverseSelection b (fst (UniverseSelection a self)))
     = fst (UniverseSelection (a ++ b) self)
  /\ UniverseSettings_Resolution (fst (UniverseSelection a self))
     = UniverseSettings_Resolution self
  /\ StartDate (fst (UniverseSelection a self)) = StartDate self
  /\ EndDate (fst (UniverseSelection a self)) = EndDate self
  /\ Cash (fst (UniverseSelection a self)) = Cash self
  /\ Universes (fst (UniverseSelection a self)) = Universes self.
Proof.
  rewrite !UniverseSelection_run. simpl.
  repeat split.
  - unfold log_data. now rewrite length_app, length_map.
  - rewrite with_log_app. unfold log_data. now rewrite map_app.
Qed.
